(** * NLP Fundamentals Explorer: a shallow embedding of [app.py]

    The script provisions six NLTK resources, then runs a six-stage
    preprocessing pipeline (tokenize, stopword filter, stem, lemmatize,
    POS-tag, NER-chunk) over one input string and renders every stage.

    The NLTK toolkit and the resource cache it reads and writes are
    external: they are the fields of a [Toolkit] record over an abstract
    cache type [W].  Everything the script itself does (exception handlers,
    fallbacks, list comprehensions, the entity loop, the rendering calls)
    is translated line by line. *)

From Stdlib Require Import Ascii NArith.
From stdpp Require Import base list strings gmap.

Local Open Scope stdpp_scope.

(** ** Python values and exceptions *)

(** Instances of [Exception], by the only distinction the script makes:
    [except LookupError] against [except Exception]. *)
Inductive exn_class := LookupError | OtherException.

Record exn := Exn { exn_cls : exn_class; exn_str : string }.

Definition is_LookupError (e : exn) : bool :=
  match exn_cls e with LookupError => true | OtherException => false end.

Definition is_Exception (e : exn) : bool := true.

(** The outcome of a call: a returned value or a raised exception. *)
Inductive result (A : Type) := Ok (a : A) | Raise (e : exn).
Arguments Ok {A} a.
Arguments Raise {A} e.

(** [nltk.Tree]: a labelled node over children that are either subtrees or
    leaves; the leaves of a chunk tree are [(token, tag)] pairs. *)
#[warnings="-register-all"]
Inductive Tree :=
| Leaf (token tag : string)
| Node (label : string) (children : list Tree).

(** What the script hands to [st.write]. *)
Inductive value :=
| VStr (s : string)
| VTokens (l : list string)
| VPairs (l : list (string * string)).

(** The calls on the presentation layer, in the order they are made. *)
Inductive ui_event :=
| StInfo (s : string)
| StError (s : string)
| StSuccess (s : string)
| StWarning (s : string)
| StTitle (s : string)
| StTextArea (label default : string)
| StSubheader (s : string)
| StDivider
| StWrite (v : value)
| StText (t : Tree).

(** ** Python string methods

    A [str] is modelled by [string]; a character is a code point below 256.
    The three character classes are Python's on that range. *)

Module Py.

Definition code (c : ascii) : N := N_of_ascii c.

Definition between (lo hi : N) (c : ascii) : bool :=
  ((lo <=? code c) && (code c <=? hi))%N.

(** [c.isspace()]: TAB..CR, FS..US, SPACE, NEL and NBSP. *)
Definition isspace_char (c : ascii) : bool :=
  between 9 13 c || between 28 32 c || between 133 133 c
  || between 160 160 c.

(** [c.isalnum()]: digits and letters of ASCII, and of Latin-1 the
    letters, the superscript digits and the vulgar fractions. *)
Definition isalnum_char (c : ascii) : bool :=
  between 48 57 c || between 65 90 c || between 97 122 c
  || between 170 170 c || between 178 179 c || between 181 181 c
  || between 185 186 c || between 188 190 c
  || between 192 214 c || between 216 246 c || between 248 255 c.

(** [c.lower()]: the upper-case letters move up by 32. *)
Definition lower_char (c : ascii) : ascii :=
  if between 65 90 c || between 192 214 c || between 216 222 c
  then ascii_of_N (code c + 32) else c.

(** [s.lower()] *)
Fixpoint lower (s : string) : string :=
  match s with
  | EmptyString => EmptyString
  | String c s' => String (lower_char c) (lower s')
  end.

Fixpoint all_chars (p : ascii -> bool) (s : string) : bool :=
  match s with
  | EmptyString => true
  | String c s' => p c && all_chars p s'
  end.

(** [s.isalnum()]: every character is alphanumeric and there is at
    least one character. *)
Definition isalnum (s : string) : bool :=
  match s with
  | EmptyString => false
  | String _ _ => all_chars isalnum_char s
  end.

(** [sep.join(l)] *)
Fixpoint join (sep : string) (l : list string) : string :=
  match l with
  | [] => ""
  | [x] => x
  | x :: rest => x +:+ sep +:+ join sep rest
  end.

(** The word collected so far, if any, becomes a token. *)
Definition flush (word : string) : list string :=
  match word with
  | EmptyString => []
  | String _ _ => [word]
  end.

(** [s.split()] scans left to right: runs of whitespace separate the
    tokens and produce no empty token. *)
Fixpoint split_from (word : string) (s : string) : list string :=
  match s with
  | EmptyString => flush word
  | String c s' =>
      if isspace_char c
      then flush word ++ split_from "" s'
      else split_from (word +:+ String c "") s'
  end.

Definition split (s : string) : list string := split_from "" s.

(** Truth value of a string: [if s:] *)
Definition truthy (s : string) : bool :=
  match s with
  | EmptyString => false
  | String _ _ => true
  end.

End Py.

(** ** The external toolkit *)

Record Toolkit (W : Type) := {
  (** [nltk.data.find(name)]: returns (a path, unused) or raises. *)
  nltk_data_find : string -> W -> result unit;
  (** [nltk.download(name, quiet=True)]: returns a status flag or raises,
      and may change the cache. *)
  nltk_download : string -> W -> result bool * W;
  (** [stopwords.words("english")] *)
  stopwords_words : string -> W -> list string;
  (** [word_tokenize(text)] *)
  word_tokenize : string -> W -> result (list string);
  (** [PorterStemmer().stem(token)] *)
  porter_stem : string -> string;
  (** [WordNetLemmatizer().lemmatize(token)] *)
  lemmatizer_lemmatize : string -> W -> string;
  (** [pos_tag(tokens)] *)
  pos_tag : list string -> W -> result (list (string * string));
  (** [ne_chunk(tagged)] *)
  ne_chunk : list (string * string) -> W -> result Tree
}.
Arguments nltk_data_find {W} _ _ _.
Arguments nltk_download {W} _ _ _.
Arguments stopwords_words {W} _ _ _.
Arguments word_tokenize {W} _ _ _.
Arguments porter_stem {W} _ _.
Arguments lemmatizer_lemmatize {W} _ _ _.
Arguments pos_tag {W} _ _ _.
Arguments ne_chunk {W} _ _ _.

(** ** The script monad: cache and screen threaded, exceptions propagated *)

Record state (W : Type) := State { cache : W; screen : list ui_event }.
Arguments State {W} cache screen.
Arguments cache {W} s.
Arguments screen {W} s.

Definition M (W A : Type) : Type := state W -> result A * state W.

Section Monad.
Context {W : Type}.

Definition ret {A} (a : A) : M W A := fun s => (Ok a, s).

Definition bind {A B} (m : M W A) (k : A -> M W B) : M W B :=
  fun s => match m s with
           | (Ok a, s') => k a s'
           | (Raise e, s') => (Raise e, s')
           end.

(** [try: body  except <class> as e: handler e]; an exception outside
    the class propagates. *)
Definition try_except {A} (body : M W A) (class : exn -> bool)
    (handler : exn -> M W A) : M W A :=
  fun s => match body s with
           | (Ok a, s') => (Ok a, s')
           | (Raise e, s') =>
               if class e then handler e s' else (Raise e, s')
           end.

(** A rendering call appends to the screen. *)
Definition st (ev : ui_event) : M W unit :=
  fun s => (Ok tt, State (cache s) (screen s ++ [ev])).

(** A toolkit call that reads the cache. *)
Definition call {A} (f : W -> result A) : M W A :=
  fun s => (f (cache s), s).

(** A toolkit call that may also write the cache. *)
Definition call_rw {A} (f : W -> result A * W) : M W A :=
  fun s => let '(r, w) := f (cache s) in (r, State w (screen s)).

(** A toolkit call that reads the cache and does not fail. *)
Definition read {A} (f : W -> A) : M W A :=
  fun s => (Ok (f (cache s)), s).
End Monad.

Declare Scope script_scope.
Delimit Scope script_scope with script.
Notation "x <- m ;; k" := (bind m (fun x => k))
  (at level 100, m at next level, right associativity) : script_scope.
Notation "m ;; k" := (bind m (fun _ => k))
  (at level 100, right associativity) : script_scope.
Local Open Scope script_scope.

(** ** Resource provisioning (lines 14-53) *)

Section Provisioning.
Context {W : Type} (nltk : Toolkit W).

Definition download_nltk_resource (resource_name : string) : M W bool :=
  try_except
    (call (nltk_data_find nltk resource_name) ;;
     ret true)
    is_LookupError
    (fun _ =>
       st (StInfo ("Downloading NLTK resource: " +:+ resource_name)) ;;
       try_except
         (call_rw (nltk_download nltk resource_name) ;;
          ret true)
         is_Exception
         (fun e =>
            st (StError ("Error downloading " +:+ resource_name
                         +:+ ": " +:+ exn_str e)) ;;
            ret false)).

Definition resources : list string :=
  ["punkt"; "stopwords"; "wordnet"; "averaged_perceptron_tagger";
   "maxent_ne_chunker"; "words"].

(** [for resource in rs: if not download_nltk_resource(resource):
    all_success = False] *)
Fixpoint provision_loop (rs : list string) (all_success : bool) : M W bool :=
  match rs with
  | [] => ret all_success
  | resource :: rs' =>
      ok <- download_nltk_resource resource ;;
      provision_loop rs' (if negb ok then false else all_success)
  end.

Definition provision : M W bool :=
  st (StInfo "Checking and downloading required NLTK resources...") ;;
  all_success <- provision_loop resources true ;;
  (if all_success
   then st (StSuccess "All NLTK resources successfully checked/downloaded")
   else st (StWarning "Some NLTK resources may not have downloaded correctly")) ;;
  ret all_success.
End Provisioning.


(** ** The preprocessing pipeline (lines 72-180) *)

Definition nl : string := String "010" "".

(** [subtree.leaves()]: the leaves below a node, left to right. *)
Fixpoint leaves (t : Tree) : list (string * string) :=
  match t with
  | Leaf token tag => [(token, tag)]
  | Node _ children => concat (map leaves children)
  end.

(** Iterating a tree yields its immediate children; what [ne_chunk]
    returns is a node. *)
Definition iter (t : Tree) : list Tree :=
  match t with
  | Leaf _ _ => []
  | Node _ children => children
  end.

(** [hasattr(subtree, "label")]: a subtree has a label, a pair has none. *)
Definition hasattr_label (subtree : Tree) : bool :=
  match subtree with
  | Leaf _ _ => false
  | Node _ _ => true
  end.

(** [subtree.label()] *)
Definition label_of (subtree : Tree) : string :=
  match subtree with
  | Leaf _ _ => ""
  | Node label _ => label
  end.

(** The body of [for subtree in ner_tree], threaded through the list
    [named_entities] it appends to. *)
Fixpoint entity_loop (subtrees : list Tree)
    (named_entities : list (string * string)) : list (string * string) :=
  match subtrees with
  | [] => named_entities
  | subtree :: rest =>
      if hasattr_label subtree
      then
        let entity := Py.join " " (map fst (leaves subtree)) in
        let label := label_of subtree in
        entity_loop rest (named_entities ++ [(entity, label)])
      else entity_loop rest named_entities
  end.

(** The variables the pipeline binds. [named_entities] stays unbound when
    the chunker raises. *)
Record Artifacts := {
  tokens : list string;
  filtered_tokens : list string;
  stemmed_tokens : list string;
  lemmatized_tokens : list string;
  pos_tagged_tokens : list (string * string);
  ner_tree : option Tree;
  named_entities : option (list (string * string))
}.

Section Pipeline.
Context {W : Type} (nltk : Toolkit W).

(** [word.lower() not in stop_words and word.isalnum()] *)
Definition keep (stop_words : gset string) (word : string) : bool :=
  negb (bool_decide (Py.lower word ∈ stop_words)) && Py.isalnum word.

Definition tokenize_stage (user_text : string) : M W (list string) :=
  st (StSubheader "2. Tokenization") ;;
  st (StWrite (VStr "Breaking text into individual words or symbols (tokens).")) ;;
  tokens <-
    try_except
      (tokens <- call (word_tokenize nltk user_text) ;;
       st (StWrite (VTokens tokens)) ;;
       ret tokens)
      is_Exception
      (fun e =>
         st (StError ("Error in tokenization: " +:+ exn_str e)) ;;
         st (StWarning "Using fallback tokenizer (basic split by space).") ;;
         let tokens := Py.split user_text in
         st (StWrite (VTokens tokens)) ;;
         ret tokens) ;;
  st StDivider ;;
  ret tokens.

Definition stopword_stage (stop_words : gset string) (tokens : list string)
    : M W (list string) :=
  st (StSubheader "3. Stopword Removal") ;;
  st (StWrite (VStr "Removing common words that don't add much value to the meaning of the text (e.g., 'the', 'is', 'and').")) ;;
  let filtered_tokens := List.filter (keep stop_words) tokens in
  st (StWrite (VTokens filtered_tokens)) ;;
  st StDivider ;;
  ret filtered_tokens.

Definition stemming_stage (filtered_tokens : list string)
    : M W (list string) :=
  st (StSubheader "4. Stemming") ;;
  st (StWrite (VStr ("Stemming reduces words to their root form by removing suffixes "
        +:+ nl +:+ "             (e.g., 'running' -> 'run'). It can sometimes create non-dictionary words."))) ;;
  let stemmed_tokens := map (porter_stem nltk) filtered_tokens in
  st (StWrite (VTokens stemmed_tokens)) ;;
  st StDivider ;;
  ret stemmed_tokens.

Definition lemmatization_stage (filtered_tokens : list string)
    : M W (list string) :=
  st (StSubheader "5. Lemmatization") ;;
  st (StWrite (VStr ("Lemmatization converts words to their base (dictionary) form, considering meaning "
        +:+ nl +:+ "             (e.g., 'better' -> 'good', 'running' -> 'run'). It is more accurate than stemming."))) ;;
  lemmatized_tokens <-
    read (fun w => map (fun tkn => lemmatizer_lemmatize nltk tkn w)
                       filtered_tokens) ;;
  st (StWrite (VTokens lemmatized_tokens)) ;;
  st StDivider ;;
  ret lemmatized_tokens.

Definition pos_legend : string :=
  "Common POS Tags:" +:+ nl +:+
  "        - **NNP**: Proper Noun (Singular)" +:+ nl +:+
  "        - **NN**: Noun (Singular)" +:+ nl +:+
  "        - **VBD**: Verb (Past Tense)" +:+ nl +:+
  "        - **VBG**: Verb (Gerund/Present Participle)" +:+ nl +:+
  "        - **JJ**: Adjective" +:+ nl +:+
  "        - **IN**: Preposition/Subordinating Conjunction" +:+ nl +:+
  "        - **DT**: Determiner" +:+ nl +:+
  "        - **.**: Punctuation".

Definition tagging_stage (tokens : list string)
    : M W (list (string * string)) :=
  st (StSubheader "6. Part of Speech (POS) Tagging") ;;
  st (StWrite (VStr ("Assigns grammatical roles to words (noun, verb, adjective, etc.)."
        +:+ nl +:+ "                Uses the original tokenized text."))) ;;
  pos_tagged_tokens <-
    try_except
      (pos_tagged_tokens <- call (pos_tag nltk tokens) ;;
       st (StWrite (VPairs pos_tagged_tokens)) ;;
       st (StInfo pos_legend) ;;
       ret pos_tagged_tokens)
      is_Exception
      (fun e =>
         st (StError ("Error in POS tagging: " +:+ exn_str e)) ;;
         let pos_tagged_tokens := map (fun token => (token, "UNK")) tokens in
         st (StWrite (VPairs pos_tagged_tokens)) ;;
         ret pos_tagged_tokens) ;;
  st StDivider ;;
  ret pos_tagged_tokens.

Definition ner_stage (pos_tagged_tokens : list (string * string))
    : M W (option Tree * option (list (string * string))) :=
  st (StSubheader "7. Named Entity Recognition (NER)") ;;
  st (StWrite (VStr ("Identifies and categorizes named entities (e.g., Person, Organization, Location)."
        +:+ nl +:+ "             Requires POS-tagged tokens."))) ;;
  bound <-
    try_except
      (ner_tree <- call (ne_chunk nltk pos_tagged_tokens) ;;
       st (StWrite (VStr "NER Tree Structure (NLTK's output):")) ;;
       st (StText ner_tree) ;;
       let named_entities := entity_loop (iter ner_tree) [] in
       (match named_entities with
        | _ :: _ =>
            st (StWrite (VStr "Detected Named Entities:")) ;;
            st (StWrite (VPairs named_entities))
        | [] => st (StWrite (VStr "No named entities detected."))
        end) ;;
       ret (Some ner_tree, Some named_entities))
      is_Exception
      (fun e =>
         st (StError ("Error in Named Entity Recognition: " +:+ exn_str e)) ;;
         ret (None, None)) ;;
  st StDivider ;;
  ret bound.

Definition pipeline (stop_words : gset string) (user_text : string)
    : M W Artifacts :=
  st StDivider ;;
  st (StSubheader "1. Original Text") ;;
  st (StWrite (VStr user_text)) ;;
  st StDivider ;;
  tokens <- tokenize_stage user_text ;;
  filtered_tokens <- stopword_stage stop_words tokens ;;
  stemmed_tokens <- stemming_stage filtered_tokens ;;
  lemmatized_tokens <- lemmatization_stage filtered_tokens ;;
  pos_tagged_tokens <- tagging_stage tokens ;;
  bound <- ner_stage pos_tagged_tokens ;;
  ret {| tokens := tokens;
         filtered_tokens := filtered_tokens;
         stemmed_tokens := stemmed_tokens;
         lemmatized_tokens := lemmatized_tokens;
         pos_tagged_tokens := pos_tagged_tokens;
         ner_tree := bound.1;
         named_entities := bound.2 |}.

Definition default_text : string :=
  "Dr. Smith went to the U.S.A. on Friday to buy some delicious apples for $5.50.".

Definition intro_text : string :=
  nl +:+ "Enter some text below to see fundamental NLP preprocessing techniques applied using NLTK."
  +:+ nl +:+ "This demonstrates how raw text is transformed before being used in more complex models."
  +:+ nl.

(** One run of the script; [user_text] is what [st.text_area] returns.
    The pipeline's variables are bound only when the text is non-empty. *)
Definition script (user_text : string) : M W (option Artifacts) :=
  provision nltk ;;
  stop_words <- read (fun w => list_to_set (stopwords_words nltk "english" w)) ;;
  st (StTitle "NLP Fundamentals Explorer") ;;
  st (StWrite (VStr intro_text)) ;;
  st (StTextArea "Enter Text Here:" default_text) ;;
  if Py.truthy user_text
  then artifacts <- pipeline stop_words user_text ;; ret (Some artifacts)
  else ret None.
End Pipeline.

(** ** The entity list as the specification words it

    Walk the immediate children in order; a labelled group contributes its
    leaf tokens joined by one space, paired with its label; a plain
    (token, tag) child contributes nothing. *)

Definition entity_of (child : Tree) : option (string * string) :=
  match child with
  | Leaf _ _ => None
  | Node label _ => Some (Py.join " " (map fst (leaves child)), label)
  end.

Definition NamedEntityList (EntityTree : Tree) : list (string * string) :=
  omap entity_of (iter EntityTree).

Definition is_labeled_group (child : Tree) : Prop :=
  exists label children, child = Node label children.

Definition no_space (w : string) : bool :=
  Py.all_chars (fun c => negb (Py.isspace_char c)) w.

(** A word as [split] returns them: not empty, free of whitespace. *)
Definition is_word (w : string) : Prop := w <> "" /\ no_space w = true.

(** Events that belong to a pipeline section rather than to provisioning
    or to the input prompt. *)
Definition section_event (ev : ui_event) : bool :=
  match ev with
  | StSubheader _ | StDivider | StText _ => true
  | StWrite (VTokens _) | StWrite (VPairs _) => true
  | StError _ | StWarning _ | StInfo _ | StSuccess _ => false
  | StTitle _ | StTextArea _ _ | StWrite (VStr _) => false
  end.

(** What a step has added to the screen belongs to no pipeline section. *)
Definition adds_no_section {W} (s s' : state W) : Prop :=
  exists evs, screen s' = screen s ++ evs
              /\ Forall (fun ev => section_event ev = false) evs.

(** ** Toolkits to run the script on

    The cache is the list of installed resource names. The lookup finds
    what is installed and raises [LookupError] otherwise; every stage that
    needs a resource raises when it is not installed. The tokenizer, tagger
    and chunker are small stand-ins of the right shape. *)

Module Fixtures.

Definition installed (name : string) (w : list string) : bool :=
  bool_decide (name ∈ w).

Definition missing (name : string) : exn :=
  Exn LookupError ("Resource " +:+ name +:+ " not found.").

(** A registry that delivers. *)
Definition online (name : string) (w : list string)
    : result bool * list string :=
  (Ok true, name :: w).

(** No connection: the downloader prints its error, installs nothing and
    returns [False]. *)
Definition offline (name : string) (w : list string)
    : result bool * list string :=
  (Ok false, w).

(** A downloader that raises. *)
Definition broken (name : string) (w : list string)
    : result bool * list string :=
  (Raise (Exn OtherException "connection refused"), w).

Definition capitalized (token : string) : bool :=
  match token with
  | String c _ => Py.between 65 90 c
  | EmptyString => false
  end.

Definition tag_of (token : string) : string :=
  if capitalized token then "NNP" else "NN".

Definition chunk_of (pair : string * string) : Tree :=
  if String.eqb pair.2 "NNP"
  then Node "PERSON" [Leaf pair.1 pair.2]
  else Leaf pair.1 pair.2.

Definition toolkit
    (download : string -> list string -> result bool * list string)
    : Toolkit (list string) :=
  {| nltk_data_find name w :=
       if installed name w then Ok tt else Raise (missing name);
     nltk_download := download;
     stopwords_words _ w :=
       if installed "stopwords" w
       then ["to"; "the"; "on"; "for"; "some"] else [];
     word_tokenize text w :=
       if installed "punkt" w
       then Ok (Py.split text) else Raise (missing "punkt");
     porter_stem token := Py.lower token;
     lemmatizer_lemmatize token w := token;
     pos_tag tokens w :=
       if installed "averaged_perceptron_tagger" w
       then Ok (map (fun token => (token, tag_of token)) tokens)
       else Raise (missing "averaged_perceptron_tagger");
     ne_chunk tagged w :=
       if installed "maxent_ne_chunker" w
       then Ok (Node "S" (map chunk_of tagged))
       else Raise (missing "maxent_ne_chunker") |}.

Definition blank : state (list string) := State [] [].

Definition provisioned : state (list string) := State resources [].

End Fixtures.

(** ** Vocabulary for the further properties *)

(** The section titles on a screen, in the order they were rendered. *)
Definition subheaders (evs : list ui_event) : list string :=
  omap (fun ev => match ev with
                  | StSubheader title => Some title
                  | _ => None
                  end) evs.

(** The error notices on a screen. *)
Definition errors (evs : list ui_event) : list string :=
  omap (fun ev => match ev with
                  | StError msg => Some msg
                  | _ => None
                  end) evs.



(** A stage that has added [evs] to the screen and left the cache alone. *)
Definition extends {W} (s s' : state W) (evs : list ui_event) : Prop :=
  s' = State (cache s) (screen s ++ evs).

(** How often a token occurs in a list. *)
Definition occurrences (word : string) (l : list string) : nat :=
  length (List.filter (String.eqb word) l).

(** A toolkit whose resource directory cannot be read: the lookup raises
    an exception that is not a [LookupError]. *)
Definition unreadable : Toolkit (list string) :=
  let nltk := Fixtures.toolkit Fixtures.online in
  {| nltk_data_find name w :=
       Raise (Exn OtherException "[Errno 13] Permission denied");
     nltk_download := nltk_download nltk;
     stopwords_words := stopwords_words nltk;
     word_tokenize := word_tokenize nltk;
     porter_stem := porter_stem nltk;
     lemmatizer_lemmatize := lemmatizer_lemmatize nltk;
     pos_tag := pos_tag nltk;
     ne_chunk := ne_chunk nltk |}.

(** * Properties *)

(** ** Running the script monad *)

Section MonadFacts.
Context {W : Type}.

Lemma bind_ok {A B} (m : M W A) (k : A -> M W B) s a s' :
  m s = (Ok a, s') -> bind m k s = k a s'.
Proof. unfold bind. intros ->. reflexivity. Qed.

Lemma bind_raise {A B} (m : M W A) (k : A -> M W B) s e s' :
  m s = (Raise e, s') -> bind m k s = (Raise e, s').
Proof. unfold bind. intros ->. reflexivity. Qed.

Lemma try_ok {A} (m : M W A) class h s a s' :
  m s = (Ok a, s') -> try_except m class h s = (Ok a, s').
Proof. unfold try_except. intros ->. reflexivity. Qed.

Lemma try_caught {A} (m : M W A) class h s e s' :
  m s = (Raise e, s') -> class e = true ->
  try_except m class h s = h e s'.
Proof. unfold try_except. intros -> ->. reflexivity. Qed.

Lemma try_uncaught {A} (m : M W A) class h s e s' :
  m s = (Raise e, s') -> class e = false ->
  try_except m class h s = (Raise e, s').
Proof. unfold try_except. intros -> ->. reflexivity. Qed.

Lemma st_run ev (s : state W) :
  st ev s = (Ok tt, State (cache s) (screen s ++ [ev])).
Proof. reflexivity. Qed.
End MonadFacts.

(** ** Running the pipeline *)

Section PipelineFacts.
Context {W : Type} (nltk : Toolkit W).

Ltac step :=
  first
    [ rewrite st_run
    | erewrite bind_ok by (first [apply st_run | reflexivity | eassumption]) ].

Lemma tokenize_stage_run user_text (s : state W) :
  exists s',
    tokenize_stage nltk user_text s =
      (Ok match word_tokenize nltk user_text (cache s) with
          | Ok ts => ts
          | Raise _ => Py.split user_text
          end, s')
    /\ cache s' = cache s.
Proof.
  unfold tokenize_stage, bind, try_except, call, st, ret, is_Exception.
  cbn [cache screen].
  destruct (word_tokenize nltk user_text (cache s)); eexists; split;
    reflexivity.
Qed.

Lemma stopword_stage_run stop_words tokens (s : state W) :
  exists s',
    stopword_stage stop_words tokens s =
      (Ok (List.filter (keep stop_words) tokens), s')
    /\ cache s' = cache s.
Proof.
  unfold stopword_stage, bind, st, ret. cbn [cache screen].
  eexists; split; reflexivity.
Qed.

Lemma stemming_stage_run filtered_tokens (s : state W) :
  exists s',
    stemming_stage nltk filtered_tokens s =
      (Ok (map (porter_stem nltk) filtered_tokens), s')
    /\ cache s' = cache s.
Proof.
  unfold stemming_stage, bind, st, ret. cbn [cache screen].
  eexists; split; reflexivity.
Qed.

Lemma lemmatization_stage_run filtered_tokens (s : state W) :
  exists s',
    lemmatization_stage nltk filtered_tokens s =
      (Ok (map (fun tkn => lemmatizer_lemmatize nltk tkn (cache s))
               filtered_tokens), s')
    /\ cache s' = cache s.
Proof.
  unfold lemmatization_stage, bind, st, read, ret. cbn [cache screen].
  eexists; split; reflexivity.
Qed.

Lemma tagging_stage_run tokens (s : state W) :
  exists s',
    tagging_stage nltk tokens s =
      (Ok match pos_tag nltk tokens (cache s) with
          | Ok tagged => tagged
          | Raise _ => map (fun token => (token, "UNK")) tokens
          end, s')
    /\ cache s' = cache s.
Proof.
  unfold tagging_stage, bind, try_except, call, st, ret, is_Exception.
  cbn [cache screen].
  destruct (pos_tag nltk tokens (cache s)); eexists; split; reflexivity.
Qed.

Lemma ner_stage_run pos_tagged_tokens (s : state W) :
  exists s',
    ner_stage nltk pos_tagged_tokens s =
      (Ok match ne_chunk nltk pos_tagged_tokens (cache s) with
          | Ok t => (Some t, Some (entity_loop (iter t) []))
          | Raise _ => (None, None)
          end, s')
    /\ cache s' = cache s.
Proof.
  unfold ner_stage, bind, try_except, call, st, ret, is_Exception.
  cbn [cache screen].
  destruct (ne_chunk nltk pos_tagged_tokens (cache s)) as [t|e].
  - destruct (entity_loop (iter t) []); eexists; split; reflexivity.
  - eexists; split; reflexivity.
Qed.

(** The pipeline never raises, leaves the cache alone, and binds its
    variables as follows. *)
Lemma pipeline_run (stop_words : gset string) (user_text : string)
    (s : state W) :
  exists a s',
    pipeline nltk stop_words user_text s = (Ok a, s')
    /\ cache s' = cache s
    /\ tokens a =
         match word_tokenize nltk user_text (cache s) with
         | Ok ts => ts
         | Raise _ => Py.split user_text
         end
    /\ filtered_tokens a = List.filter (keep stop_words) (tokens a)
    /\ stemmed_tokens a = map (porter_stem nltk) (filtered_tokens a)
    /\ lemmatized_tokens a =
         map (fun tkn => lemmatizer_lemmatize nltk tkn (cache s))
             (filtered_tokens a)
    /\ pos_tagged_tokens a =
         match pos_tag nltk (tokens a) (cache s) with
         | Ok tagged => tagged
         | Raise _ => map (fun token => (token, "UNK")) (tokens a)
         end
    /\ ner_tree a =
         match ne_chunk nltk (pos_tagged_tokens a) (cache s) with
         | Ok t => Some t
         | Raise _ => None
         end
    /\ named_entities a = (fun t => entity_loop (iter t) []) <$> ner_tree a.
Proof.
  unfold pipeline.
  do 4 step.
  set (s0 := State _ _).
  assert (Hc0 : cache s0 = cache s) by reflexivity.
  destruct (tokenize_stage_run user_text s0) as (s1 & H1 & Hc1).
  erewrite bind_ok by exact H1.
  destruct (stopword_stage_run stop_words
              (match word_tokenize nltk user_text (cache s0) with
               | Ok ts => ts | Raise _ => Py.split user_text end) s1)
    as (s2 & H2 & Hc2).
  erewrite bind_ok by exact H2.
  destruct (stemming_stage_run
              (List.filter (keep stop_words)
                 (match word_tokenize nltk user_text (cache s0) with
                  | Ok ts => ts | Raise _ => Py.split user_text end)) s2)
    as (s3 & H3 & Hc3).
  erewrite bind_ok by exact H3.
  destruct (lemmatization_stage_run
              (List.filter (keep stop_words)
                 (match word_tokenize nltk user_text (cache s0) with
                  | Ok ts => ts | Raise _ => Py.split user_text end)) s3)
    as (s4 & H4 & Hc4).
  erewrite bind_ok by exact H4.
  destruct (tagging_stage_run
              (match word_tokenize nltk user_text (cache s0) with
               | Ok ts => ts | Raise _ => Py.split user_text end) s4)
    as (s5 & H5 & Hc5).
  erewrite bind_ok by exact H5.
  match goal with
  | |- context [ner_stage nltk ?tg] =>
      destruct (ner_stage_run tg s5) as (s6 & H6 & Hc6)
  end.
  erewrite bind_ok by exact H6.
  unfold ret.
  do 2 eexists. split; [reflexivity|].
  cbn [tokens filtered_tokens stemmed_tokens lemmatized_tokens
       pos_tagged_tokens ner_tree named_entities].
  assert (E5 : cache s5 = cache s) by congruence.
  assert (E4 : cache s4 = cache s) by congruence.
  assert (E3 : cache s3 = cache s) by congruence.
  rewrite E5, E4, E3, Hc0.
  repeat split; try congruence.
  - destruct (ne_chunk nltk _ (cache s)); reflexivity.
  - destruct (ne_chunk nltk _ (cache s)); reflexivity.
Qed.
End PipelineFacts.

(** ** Resource provisioning *)

Section ProvisioningFacts.
Context {W : Type} (nltk : Toolkit W).

(** Every path through [download_nltk_resource]. *)
Lemma download_nltk_resource_run resource_name (s : state W) :
  download_nltk_resource nltk resource_name s =
    match nltk_data_find nltk resource_name (cache s) with
    | Ok _ => (Ok true, s)
    | Raise e =>
        if is_LookupError e then
          let shown :=
            screen s ++ [StInfo ("Downloading NLTK resource: " +:+ resource_name)] in
          match nltk_download nltk resource_name (cache s) with
          | (Ok _, w) => (Ok true, State w shown)
          | (Raise e', w) =>
              (Ok false,
               State w (shown ++ [StError ("Error downloading " +:+ resource_name
                                           +:+ ": " +:+ exn_str e')]))
          end
        else (Raise e, s)
    end.
Proof.
  unfold download_nltk_resource, bind, try_except, call, call_rw, st, ret,
    is_Exception.
  cbn [cache screen].
  destruct (nltk_data_find nltk resource_name (cache s)) as [[]|e];
    [reflexivity|].
  destruct (is_LookupError e); [|reflexivity].
  destruct (nltk_download nltk resource_name (cache s)) as [[b|e'] w];
    reflexivity.
Qed.

(** A resource that is found is reported present without any fetch:
    cache and screen are untouched. *)
Lemma download_nltk_resource_found resource_name (s : state W) :
  nltk_data_find nltk resource_name (cache s) = Ok tt ->
  download_nltk_resource nltk resource_name s = (Ok true, s).
Proof. intros H. rewrite download_nltk_resource_run, H. reflexivity. Qed.

(** A fetch that raises is reported as a failure. *)
Lemma download_nltk_resource_fetch_raised resource_name (s : state W) e e' w :
  nltk_data_find nltk resource_name (cache s) = Raise e ->
  is_LookupError e = true ->
  nltk_download nltk resource_name (cache s) = (Raise e', w) ->
  exists s', download_nltk_resource nltk resource_name s = (Ok false, s')
             /\ cache s' = w.
Proof.
  intros H1 H2 H3. rewrite download_nltk_resource_run, H1, H2, H3.
  eexists; split; reflexivity.
Qed.

(** A fetch that returns is reported as a success, whatever status flag
    it returned. *)
Lemma download_nltk_resource_fetch_returned resource_name (s : state W) e b w :
  nltk_data_find nltk resource_name (cache s) = Raise e ->
  is_LookupError e = true ->
  nltk_download nltk resource_name (cache s) = (Ok b, w) ->
  exists s', download_nltk_resource nltk resource_name s = (Ok true, s')
             /\ cache s' = w.
Proof.
  intros H1 H2 H3. rewrite download_nltk_resource_run, H1, H2, H3.
  eexists; split; reflexivity.
Qed.

(** The only exception that leaves the function is one raised by the
    lookup itself that is not a [LookupError]. *)
Lemma download_nltk_resource_raises resource_name (s : state W) e s' :
  download_nltk_resource nltk resource_name s = (Raise e, s') ->
  nltk_data_find nltk resource_name (cache s) = Raise e
  /\ is_LookupError e = false.
Proof.
  rewrite download_nltk_resource_run.
  destruct (nltk_data_find nltk resource_name (cache s)) as [[]|e0];
    [discriminate|].
  destruct (is_LookupError e0) eqn:Hcls.
  - cbn zeta.
    destruct (nltk_download nltk resource_name (cache s)) as [[b|e'] w];
      discriminate.
  - intros [= -> ->]. auto.
Qed.

Section LookupContract.
(** The lookup signals a missing resource by [LookupError]. *)
Hypothesis find_raises_LookupError :
  forall name w e,
    nltk_data_find nltk name w = Raise e -> is_LookupError e = true.

Lemma download_nltk_resource_returns resource_name (s : state W) :
  exists b s', download_nltk_resource nltk resource_name s = (Ok b, s').
Proof.
  destruct (download_nltk_resource nltk resource_name s) as [[b|e] s']
    eqn:Hrun; [eauto|].
  apply download_nltk_resource_raises in Hrun as [Hfind Hcls].
  apply find_raises_LookupError in Hfind. congruence.
Qed.

Lemma provision_loop_returns rs all_success (s : state W) :
  exists b s', provision_loop nltk rs all_success s = (Ok b, s').
Proof.
  revert all_success s.
  induction rs as [|resource rs IH]; intros all_success s; cbn [provision_loop].
  - unfold ret. eauto.
  - destruct (download_nltk_resource_returns resource s) as (ok & s1 & H1).
    erewrite bind_ok by exact H1. apply IH.
Qed.

Lemma provision_returns (s : state W) :
  exists b s', provision nltk s = (Ok b, s').
Proof.
  unfold provision. erewrite bind_ok by apply st_run.
  match goal with
  | |- context [bind _ _ ?s0] =>
      destruct (provision_loop_returns resources true s0) as (b & s1 & H1)
  end.
  erewrite bind_ok by exact H1.
  destruct b; erewrite bind_ok by apply st_run; unfold ret; eauto.
Qed.
End LookupContract.
End ProvisioningFacts.

(** ** Strings: [split], [join], [isalnum] *)

Section StringFacts.

Lemma append_cons c (u v : string) :
  String c u +:+ v = String c (u +:+ v).
Proof. reflexivity. Qed.

Lemma append_empty_r (w : string) : w +:+ "" = w.
Proof.
  induction w as [|c w IH]; [reflexivity|].
  now rewrite append_cons, IH.
Qed.

Lemma append_snoc (word : string) c (w : string) :
  (word +:+ String c "") +:+ w = word +:+ String c w.
Proof.
  induction word as [|c0 word IH]; [reflexivity|].
  now rewrite !append_cons, IH.
Qed.

Lemma all_chars_app p (u v : string) :
  Py.all_chars p (u +:+ v) = Py.all_chars p u && Py.all_chars p v.
Proof.
  induction u as [|c u IH]; [reflexivity|].
  rewrite append_cons. cbn [Py.all_chars]. rewrite IH.
  now rewrite andb_assoc.
Qed.

Lemma flush_word (w : string) : w <> "" -> Py.flush w = [w].
Proof. destruct w; [congruence|reflexivity]. Qed.

(** Scanning over characters that are not whitespace extends the word
    being collected. *)
Lemma split_from_word (word w rest : string) :
  no_space w = true ->
  Py.split_from word (w +:+ rest) = Py.split_from (word +:+ w) rest.
Proof.
  revert word. induction w as [|c w IH]; intros word Hw.
  - now rewrite append_empty_r.
  - cbn in Hw. apply andb_prop in Hw as [Hc Hw].
    apply negb_true_iff in Hc.
    rewrite append_cons.
    cbn [Py.split_from]. rewrite Hc, IH by assumption.
    now rewrite append_snoc.
Qed.

Lemma split_from_space (word rest : string) :
  Py.split_from word (" " +:+ rest) = Py.flush word ++ Py.split_from "" rest.
Proof. reflexivity. Qed.

(** Splitting undoes joining words by single spaces. *)
Lemma split_join (ws : list string) :
  Forall is_word ws -> Py.split (Py.join " " ws) = ws.
Proof.
  unfold Py.split.
  induction ws as [|w ws IH]; intros Hws; [reflexivity|].
  apply Forall_cons in Hws as [[Hne Hw] Hws].
  destruct ws as [|w' ws].
  - cbn [Py.join]. rewrite <- (append_empty_r w) at 1.
    rewrite split_from_word by assumption.
    change ("" +:+ w) with w. cbn [Py.split_from]. now apply flush_word.
  - change (Py.join " " (w :: w' :: ws))
      with (w +:+ " " +:+ Py.join " " (w' :: ws)).
    rewrite split_from_word by assumption.
    change ("" +:+ w) with w. rewrite split_from_space.
    rewrite flush_word by assumption.
    rewrite IH by assumption. reflexivity.
Qed.

(** Every token [split] returns is a word. *)
Lemma split_from_words (word s : string) :
  no_space word = true -> Forall is_word (Py.split_from word s).
Proof.
  revert word. induction s as [|c s IH]; intros word Hword.
  - cbn. destruct word; constructor; [|constructor].
    split; [discriminate|assumption].
  - cbn [Py.split_from]. destruct (Py.isspace_char c) eqn:Hc.
    + apply Forall_app. split; [|now apply IH].
      destruct word; constructor; [|constructor].
      split; [discriminate|assumption].
    + apply IH. unfold no_space. rewrite all_chars_app.
      fold (no_space word). rewrite Hword. cbn. now rewrite Hc.
Qed.

Lemma split_words (s : string) : Forall is_word (Py.split s).
Proof. now apply split_from_words. Qed.

(** [isalnum] holds of the non-empty strings made of alphanumeric
    characters only. *)
Lemma isalnum_chars (w : string) :
  Py.isalnum w = true <->
  w <> "" /\ forall c, In c (String.list_ascii_of_string w) ->
                       Py.isalnum_char c = true.
Proof.
  assert (Hall : forall u, Py.all_chars Py.isalnum_char u = true <->
            forall c, In c (String.list_ascii_of_string u) ->
                      Py.isalnum_char c = true).
  { induction u as [|c u IH]; cbn.
    - split; [intros _ c []|reflexivity].
    - rewrite andb_true_iff, IH. split.
      + intros [Hc Hu] c' [<-|Hin]; auto.
      + intros H. split; [apply H; now left|]. intros c' Hin. apply H.
        now right. }
  destruct w as [|c w].
  - cbn. split; [discriminate|]. intros [[] _]. reflexivity.
  - change (Py.isalnum (String c w))
      with (Py.all_chars Py.isalnum_char (String c w)).
    rewrite Hall. split; [intros H; split; [discriminate|exact H]|].
    intros [_ H]. exact H.
Qed.
End StringFacts.

(** ** Lists: the filter and the entity loop *)

Section ListFacts.
Context {A : Type} (p : A -> bool).

Lemma filter_sublist (l : list A) : List.filter p l `sublist_of` l.
Proof.
  induction l as [|x l IH]; cbn; [constructor|].
  destruct (p x); now constructor.
Qed.

(** The filter is the largest subsequence all of whose elements pass. *)
Lemma filter_largest (l l' : list A) :
  l' `sublist_of` l -> Forall (fun x => p x = true) l' ->
  l' `sublist_of` List.filter p l.
Proof.
  induction 1 as [|x l1 l2 _ IH|x l1 l2 _ IH]; intros Hall; cbn.
  - constructor.
  - apply Forall_cons in Hall as [-> Hall]. constructor. now apply IH.
  - destruct (p x); [constructor|]; now apply IH.
Qed.

Lemma filter_elem_of (l : list A) x :
  x ∈ List.filter p l <-> x ∈ l /\ p x = true.
Proof. rewrite !list_elem_of_In. apply filter_In. Qed.

Lemma filter_all (l : list A) :
  Forall (fun x => p x = true) (List.filter p l).
Proof. apply Forall_forall. intros x Hx. now apply filter_elem_of in Hx. Qed.
End ListFacts.

Lemma keep_spec (stop_words : gset string) (word : string) :
  keep stop_words word = true <->
  (Py.lower word ∉ stop_words) /\ Py.isalnum word = true.
Proof.
  unfold keep. rewrite andb_true_iff, negb_true_iff, bool_decide_eq_false.
  reflexivity.
Qed.

(** The loop appends, child by child, what [entity_of] yields. *)
Lemma entity_loop_omap (subtrees : list Tree) named_entities :
  entity_loop subtrees named_entities =
  named_entities ++ omap entity_of subtrees.
Proof.
  revert named_entities.
  induction subtrees as [|subtree rest IH]; intros acc; cbn [entity_loop omap list_omap].
  - now rewrite app_nil_r.
  - destruct subtree as [token tag|label children];
      cbn [hasattr_label entity_of label_of]; rewrite IH.
    + reflexivity.
    + now rewrite <- app_assoc.
Qed.

Lemma NamedEntityList_empty (t : Tree) :
  NamedEntityList t = [] <->
  Forall (fun child => ~ is_labeled_group child) (iter t).
Proof.
  unfold NamedEntityList. induction (iter t) as [|child rest IH].
  - split; [constructor|reflexivity].
  - cbn [omap list_omap].
    destruct child as [token tag|label children]; cbn [entity_of].
    + rewrite IH. split.
      * intros H. constructor; [|exact H]. intros (l & cs & [=]).
      * intros H. now apply Forall_cons in H as [_ H].
    + split; [discriminate|].
      intros H. apply Forall_cons in H as [H _]. exfalso. apply H.
      now exists label, children.
Qed.

(** ** The pipeline's artifacts *)

(** C2: for every token sequence the pipeline binds, the filtered sequence
    is an order-preserving subsequence of it, every element of which has a
    lowercased form outside the stopword set and is alphanumeric
    ([str.isalnum]), and it is the largest such subsequence: it contains
    exactly the tokens that pass. In particular no filtered element is a
    stopword case-insensitively and none contains a character that is not
    alphanumeric. *)
Theorem filtered_tokens_subsequence {W} (nltk : Toolkit W)
    (stop_words : gset string) (user_text : string) (s : state W) :
  exists a s',
    pipeline nltk stop_words user_text s = (Ok a, s')
    /\ filtered_tokens a `sublist_of` tokens a
    /\ (forall word,
          word ∈ filtered_tokens a <->
          word ∈ tokens a /\ (Py.lower word ∉ stop_words)
          /\ Py.isalnum word = true)
    /\ (forall l,
          l `sublist_of` tokens a ->
          Forall (fun word => (Py.lower word ∉ stop_words)
                              /\ Py.isalnum word = true) l ->
          l `sublist_of` filtered_tokens a)
    /\ Forall (fun word =>
                 (Py.lower word ∉ stop_words)
                 /\ forall c, In c (String.list_ascii_of_string word) ->
                              Py.isalnum_char c = true)
              (filtered_tokens a).
Proof.
  destruct (pipeline_run nltk stop_words user_text s)
    as (a & s' & Hrun & _ & _ & Hf & _).
  exists a, s'. split; [exact Hrun|]. rewrite Hf.
  split; [apply filter_sublist|].
  split; [|split].
  - intros word. rewrite filter_elem_of, keep_spec. reflexivity.
  - intros l Hsub Hall. apply filter_largest; [exact Hsub|].
    eapply Forall_impl; [exact Hall|]. intros word H. now apply keep_spec.
  - eapply Forall_impl; [apply filter_all|]. intros word H.
    apply keep_spec in H as [Hstop Halnum]. split; [exact Hstop|].
    now apply isalnum_chars in Halnum as [_ Hchars].
Qed.

(** The specification's scenario, on the tokens it lists. *)
Example filter_scenario :
  List.filter (keep {["to"; "the"; "on"; "for"; "some"]})
    ["Dr."; "Smith"; "went"; "to"; "the"; "U.S.A."; "on"; "Friday"; "To";
     "buy"; "some"; "delicious"; "apples"; "for"; "$"; "5.50"; "."]
  = ["Smith"; "went"; "Friday"; "buy"; "delicious"; "apples"].
Proof. vm_compute. reflexivity. Qed.

(** C3: the stemmed and the lemmatized sequence are each the image of the
    same filtered sequence under a per-token transformation (the lemmatizer
    reads the filtered tokens, not the stems), so both are as long as the
    filtered sequence. *)
Theorem stems_and_lemmas_of_filtered_tokens {W} (nltk : Toolkit W)
    (stop_words : gset string) (user_text : string) (s : state W) :
  exists a s',
    pipeline nltk stop_words user_text s = (Ok a, s')
    /\ stemmed_tokens a = map (porter_stem nltk) (filtered_tokens a)
    /\ lemmatized_tokens a =
         map (fun tkn => lemmatizer_lemmatize nltk tkn (cache s))
             (filtered_tokens a)
    /\ length (stemmed_tokens a) = length (filtered_tokens a)
    /\ length (lemmatized_tokens a) = length (filtered_tokens a).
Proof.
  destruct (pipeline_run nltk stop_words user_text s)
    as (a & s' & Hrun & _ & _ & _ & Hst & Hle & _).
  exists a, s'. rewrite Hst at 2. rewrite Hle at 2.
  rewrite !length_map. auto.
Qed.

(** C4: when the tagger returns one pair per token it is given, the tagged
    sequence is as long as the token sequence, whether the tagger returned
    or raised and the fallback ran. *)
Theorem tagged_as_long_as_tokens {W} (nltk : Toolkit W)
    (stop_words : gset string) (user_text : string) (s : state W)
    (pos_tag_one_pair_per_token :
       forall tokens w tagged,
         pos_tag nltk tokens w = Ok tagged ->
         length tagged = length tokens) :
  exists a s',
    pipeline nltk stop_words user_text s = (Ok a, s')
    /\ length (pos_tagged_tokens a) = length (tokens a)
    /\ match pos_tag nltk (tokens a) (cache s) with
       | Ok tagged => pos_tagged_tokens a = tagged
       | Raise _ =>
           pos_tagged_tokens a = map (fun token => (token, "UNK")) (tokens a)
       end.
Proof.
  destruct (pipeline_run nltk stop_words user_text s)
    as (a & s' & Hrun & _ & _ & _ & _ & _ & Htag & _).
  exists a, s'. split; [exact Hrun|]. rewrite Htag.
  destruct (pos_tag nltk (tokens a) (cache s)) as [tagged|e] eqn:Hcall.
  - split; [|reflexivity]. eapply pos_tag_one_pair_per_token, Hcall.
  - split; [apply length_map|reflexivity].
Qed.

(** C5: when the tokenizer raises, the token sequence is the input split on
    whitespace: a flat list of non-empty, whitespace-free words, such that
    words joined by single spaces split back into themselves; the text
    "buy some delicious apples" gives its four words. *)
Theorem tokenization_falls_back_to_split {W} (nltk : Toolkit W)
    (stop_words : gset string) (user_text : string) (s : state W) e
    (tokenizer_failed : word_tokenize nltk user_text (cache s) = Raise e) :
  (exists a s',
     pipeline nltk stop_words user_text s = (Ok a, s')
     /\ tokens a = Py.split user_text
     /\ Forall is_word (tokens a))
  /\ (forall ws, Forall is_word ws -> Py.split (Py.join " " ws) = ws)
  /\ Py.split "buy some delicious apples"
     = ["buy"; "some"; "delicious"; "apples"].
Proof.
  split; [|split; [exact split_join|reflexivity]].
  destruct (pipeline_run nltk stop_words user_text s)
    as (a & s' & Hrun & _ & Htok & _).
  rewrite tokenizer_failed in Htok.
  exists a, s'. rewrite Htok. auto using split_words.
Qed.

(** C6: when the tagger raises on the token sequence, every token of that
    unfiltered sequence is paired, in order, with the one sentinel tag
    "UNK". *)
Theorem tagging_falls_back_to_unknown {W} (nltk : Toolkit W)
    (stop_words : gset string) (user_text : string) (s : state W) ts e
    (tokenized :
       match word_tokenize nltk user_text (cache s) with
       | Ok tokens => tokens
       | Raise _ => Py.split user_text
       end = ts)
    (tagger_failed : pos_tag nltk ts (cache s) = Raise e) :
  exists a s',
    pipeline nltk stop_words user_text s = (Ok a, s')
    /\ tokens a = ts
    /\ pos_tagged_tokens a = map (fun token => (token, "UNK")) ts
    /\ map fst (pos_tagged_tokens a) = ts
    /\ Forall (fun pair => pair.2 = "UNK") (pos_tagged_tokens a).
Proof.
  destruct (pipeline_run nltk stop_words user_text s)
    as (a & s' & Hrun & _ & Htok & _ & _ & _ & Htag & _).
  rewrite tokenized in Htok. rewrite Htok, tagger_failed in Htag.
  exists a, s'. rewrite Htag.
  split; [exact Hrun|]. split; [exact Htok|]. split; [reflexivity|].
  split.
  - rewrite map_map. apply map_id.
  - apply Forall_forall. intros pair Hin.
    apply list_elem_of_In, in_map_iff in Hin as (token & <- & _).
    reflexivity.
Qed.

(** C7: the entity list the pipeline binds is the specification's walk over
    the immediate children of the entity tree: in order, each labelled
    group gives its leaf tokens joined by one space, paired with its label,
    and each plain pair is skipped. A tree without a labelled group gives
    the empty list, bound as a value like any other. *)
Theorem named_entities_of_labeled_children {W} (nltk : Toolkit W)
    (stop_words : gset string) (user_text : string) (s : state W) :
  exists a s',
    pipeline nltk stop_words user_text s = (Ok a, s')
    /\ ner_tree a =
         match ne_chunk nltk (pos_tagged_tokens a) (cache s) with
         | Ok t => Some t
         | Raise _ => None
         end
    /\ named_entities a = NamedEntityList <$> ner_tree a
    /\ (forall t, entity_loop (iter t) [] = NamedEntityList t)
    /\ (forall t,
          NamedEntityList t = [] <->
          Forall (fun child => ~ is_labeled_group child) (iter t))
    /\ (forall t,
          ner_tree a = Some t ->
          Forall (fun child => ~ is_labeled_group child) (iter t) ->
          named_entities a = Some []).
Proof.
  assert (Hloop : forall t, entity_loop (iter t) [] = NamedEntityList t).
  { intros t. now rewrite entity_loop_omap. }
  destruct (pipeline_run nltk stop_words user_text s)
    as (a & s' & Hrun & _ & _ & _ & _ & _ & _ & Htree & Hent).
  exists a, s'. split; [exact Hrun|]. split; [exact Htree|].
  assert (Hspec : named_entities a = NamedEntityList <$> ner_tree a).
  { rewrite Hent. destruct (ner_tree a) as [t|]; [|reflexivity].
    cbn. now rewrite Hloop. }
  split; [exact Hspec|]. split; [exact Hloop|].
  split; [exact NamedEntityList_empty|].
  intros t Ht Hplain. rewrite Hspec, Ht. cbn.
  now apply NamedEntityList_empty in Hplain as ->.
Qed.

(** C8: the tagger is given the token sequence as tokenized, not the
    filtered one, and the chunker is given the tagged sequence; what they
    produce is the same whatever the stopword set is. *)
Theorem tagging_and_chunking_read_unfiltered_tokens {W} (nltk : Toolkit W)
    (stop_words : gset string) (user_text : string) (s : state W) :
  exists a s',
    pipeline nltk stop_words user_text s = (Ok a, s')
    /\ pos_tagged_tokens a =
         match pos_tag nltk (tokens a) (cache s) with
         | Ok tagged => tagged
         | Raise _ => map (fun token => (token, "UNK")) (tokens a)
         end
    /\ ner_tree a =
         match ne_chunk nltk (pos_tagged_tokens a) (cache s) with
         | Ok t => Some t
         | Raise _ => None
         end
    /\ forall other_stop_words,
         exists a' s'',
           pipeline nltk other_stop_words user_text s = (Ok a', s'')
           /\ tokens a' = tokens a
           /\ pos_tagged_tokens a' = pos_tagged_tokens a
           /\ ner_tree a' = ner_tree a
           /\ named_entities a' = named_entities a.
Proof.
  destruct (pipeline_run nltk stop_words user_text s)
    as (a & s' & Hrun & _ & Htok & _ & _ & _ & Htag & Htree & Hent).
  exists a, s'. split; [exact Hrun|]. split; [exact Htag|].
  split; [exact Htree|]. intros other.
  destruct (pipeline_run nltk other user_text s)
    as (a' & s'' & Hrun' & _ & Htok' & _ & _ & _ & Htag' & Htree' & Hent').
  exists a', s''. split; [exact Hrun'|].
  assert (E1 : tokens a' = tokens a) by congruence.
  assert (E2 : pos_tagged_tokens a' = pos_tagged_tokens a).
  { rewrite Htag', Htag, E1. reflexivity. }
  assert (E3 : ner_tree a' = ner_tree a).
  { rewrite Htree', Htree, E2. reflexivity. }
  repeat split; try assumption. rewrite Hent', Hent, E3. reflexivity.
Qed.

(** ** The whole script *)

Section ScreenFacts.
Context {W : Type} (nltk : Toolkit W).

Lemma adds_no_section_refl (s : state W) : adds_no_section s s.
Proof. exists []. rewrite app_nil_r. split; [reflexivity|constructor]. Qed.

Lemma adds_no_section_trans (s1 s2 s3 : state W) :
adds_no_section s1 s2 -> adds_no_section s2 s3 -> adds_no_section s1 s3.
Proof.
intros (e1 & H1 & F1) (e2 & H2 & F2). exists (e1 ++ e2).
rewrite H2, H1, app_assoc. split; [reflexivity|]. now apply Forall_app.
Qed.

Lemma adds_no_section_st ev (s : state W) :
section_event ev = false ->
adds_no_section s (State (cache s) (screen s ++ [ev])).
Proof. intros H. exists [ev]. split; [reflexivity|]. now repeat constructor. Qed.

Lemma download_nltk_resource_screen resource_name (s : state W) :
adds_no_section s (download_nltk_resource nltk resource_name s).2.
Proof.
rewrite download_nltk_resource_run.
destruct (nltk_data_find nltk resource_name (cache s)) as [[]|e];
  [apply adds_no_section_refl|].
destruct (is_LookupError e); [|apply adds_no_section_refl].
cbn zeta.
destruct (nltk_download nltk resource_name (cache s)) as [[b|e'] w]; cbn.
- eexists [_]. split; [reflexivity|]. now repeat constructor.
- eexists [_; _]. rewrite <- app_assoc.
  split; [reflexivity|]. now repeat constructor.
Qed.

Lemma provision_loop_screen rs all_success (s : state W) :
adds_no_section s (provision_loop nltk rs all_success s).2.
Proof.
revert all_success s.
induction rs as [|resource rs IH]; intros all_success s;
  cbn [provision_loop].
- apply adds_no_section_refl.
- pose proof (download_nltk_resource_screen resource s) as H1.
  unfold bind.
  destruct (download_nltk_resource nltk resource s) as [[ok|e] s1];
    cbn in H1; [|exact H1].
  eapply adds_no_section_trans; [exact H1|apply IH].
Qed.

Lemma provision_screen (s : state W) :
adds_no_section s (provision nltk s).2.
Proof.
unfold provision. erewrite bind_ok by apply st_run.
set (s0 := State _ _).
assert (H0 : adds_no_section s s0) by now apply adds_no_section_st.
pose proof (provision_loop_screen resources true s0) as H1.
unfold bind at 1.
destruct (provision_loop nltk resources true s0) as [[b|e] s1];
  cbn in H1; [|eapply adds_no_section_trans; eassumption].
destruct b; erewrite bind_ok by apply st_run; unfold ret; cbn;
  (eapply adds_no_section_trans; [exact H0|]);
  (eapply adds_no_section_trans; [exact H1|]);
  now apply adds_no_section_st.
Qed.
End ScreenFacts.

(** C9: on the empty input the script is provisioning followed by the
    title, the introduction and the input prompt, and nothing else: no
    pipeline variable is bound and nothing that belongs to a pipeline
    section reaches the screen. *)
Theorem empty_input_runs_no_stage {W} (nltk : Toolkit W) (s : state W) :
  script nltk "" s =
    match provision nltk s with
    | (Ok _, s1) =>
        (Ok None,
         State (cache s1)
               (screen s1 ++ [StTitle "NLP Fundamentals Explorer";
                              StWrite (VStr intro_text);
                              StTextArea "Enter Text Here:" default_text]))
    | (Raise e, s1) => (Raise e, s1)
    end
  /\ adds_no_section s (script nltk "" s).2
  /\ forall a, (script nltk "" s).1 <> Ok (Some a).
Proof.
  assert (Hrun : script nltk "" s =
    match provision nltk s with
    | (Ok _, s1) =>
        (Ok None,
         State (cache s1)
               (screen s1 ++ [StTitle "NLP Fundamentals Explorer";
                              StWrite (VStr intro_text);
                              StTextArea "Enter Text Here:" default_text]))
    | (Raise e, s1) => (Raise e, s1)
    end).
  { unfold script. unfold bind at 1.
    destruct (provision nltk s) as [[b|e] s1]; [|reflexivity].
    unfold bind, read, st, ret. cbn. rewrite <- !app_assoc. reflexivity. }
  split; [exact Hrun|]. rewrite Hrun.
  pose proof (provision_screen nltk s) as Hscreen.
  destruct (provision nltk s) as [[b|e] s1]; cbn in Hscreen |- *.
  - split; [|discriminate].
    eapply adds_no_section_trans; [exact Hscreen|].
    eexists [_; _; _]. split; [reflexivity|]. now repeat constructor.
  - split; [exact Hscreen|discriminate].
Qed.

(** ** Provisioning *)

(** C10: when the lookup signals a missing resource by [LookupError],
    [download_nltk_resource] returns a boolean for every resource name and
    every behaviour of the fetch; a fetch that raises is caught and answered
    by [False]; so neither the provisioning loop nor the provisioning step
    raises. *)
Theorem provisioning_never_raises {W} (nltk : Toolkit W)
    (find_raises_LookupError :
       forall name w e,
         nltk_data_find nltk name w = Raise e -> is_LookupError e = true) :
  (forall resource_name s,
     exists b s', download_nltk_resource nltk resource_name s = (Ok b, s'))
  /\ (forall resource_name s e e' w,
        nltk_data_find nltk resource_name (cache s) = Raise e ->
        nltk_download nltk resource_name (cache s) = (Raise e', w) ->
        exists s', download_nltk_resource nltk resource_name s = (Ok false, s'))
  /\ (forall rs all_success s,
        exists b s', provision_loop nltk rs all_success s = (Ok b, s'))
  /\ (forall s, exists b s', provision nltk s = (Ok b, s')).
Proof.
  split; [|split; [|split]].
  - now apply download_nltk_resource_returns.
  - intros resource_name s e e' w Hfind Hfetch.
    destruct (download_nltk_resource_fetch_raised nltk resource_name s e e' w)
      as (s' & Hrun & _); eauto.
  - now apply provision_loop_returns.
  - now apply provision_returns.
Qed.

(** C1 fails on the code. With the resource absent and no connection, the
    downloader installs nothing and returns [False]; the function discards
    that flag and answers [True], while the resource is still not found
    after the call. *)
Theorem failed_fetch_reported_as_success :
  let nltk := Fixtures.toolkit Fixtures.offline in
  let run := download_nltk_resource nltk "punkt" Fixtures.blank in
  nltk_data_find nltk "punkt" (cache Fixtures.blank)
    = Raise (Fixtures.missing "punkt")
  /\ nltk_download nltk "punkt" (cache Fixtures.blank) = (Ok false, [])
  /\ run.1 = Ok true
  /\ nltk_data_find nltk "punkt" (cache run.2)
       = Raise (Fixtures.missing "punkt").
Proof. vm_compute. auto. Qed.

(** ** The theorems at work on concrete runs *)

Lemma fixture_find_raises_LookupError download name w e :
  nltk_data_find (Fixtures.toolkit download) name w = Raise e ->
  is_LookupError e = true.
Proof.
  cbn. destruct (Fixtures.installed name w); [discriminate|].
  intros [= <-]. reflexivity.
Qed.

Lemma fixture_pos_tag_one_pair_per_token download tokens w tagged :
  pos_tag (Fixtures.toolkit download) tokens w = Ok tagged ->
  length tagged = length tokens.
Proof.
  cbn. destruct (Fixtures.installed _ w); [|discriminate].
  intros [= <-]. apply length_map.
Qed.

Lemma provisioning_never_raises_witness :
  exists b s',
    provision (Fixtures.toolkit Fixtures.broken) Fixtures.blank = (Ok b, s').
Proof.
  apply (provisioning_never_raises (Fixtures.toolkit Fixtures.broken)).
  apply fixture_find_raises_LookupError.
Defined.

Lemma tagged_as_long_as_tokens_witness :
  exists a s',
    pipeline (Fixtures.toolkit Fixtures.online) {["to"; "the"]}
      "Dr. Smith went to the U.S.A." Fixtures.provisioned = (Ok a, s')
    /\ length (pos_tagged_tokens a) = length (tokens a).
Proof.
  destruct (tagged_as_long_as_tokens (Fixtures.toolkit Fixtures.online)
              {["to"; "the"]} "Dr. Smith went to the U.S.A."
              Fixtures.provisioned
              (fixture_pos_tag_one_pair_per_token Fixtures.online))
    as (a & s' & Hrun & Hlen & _).
  exists a, s'. split; assumption.
Defined.

Lemma tokenization_falls_back_to_split_witness :
  exists a s',
    pipeline (Fixtures.toolkit Fixtures.offline) ∅
      "buy some delicious apples" Fixtures.blank = (Ok a, s')
    /\ tokens a = ["buy"; "some"; "delicious"; "apples"].
Proof.
  destruct (tokenization_falls_back_to_split
              (Fixtures.toolkit Fixtures.offline) ∅
              "buy some delicious apples" Fixtures.blank
              (Fixtures.missing "punkt") eq_refl)
    as ((a & s' & Hrun & Htok & _) & _ & Hsplit).
  exists a, s'. split; [exact Hrun|]. rewrite Htok. exact Hsplit.
Defined.

Lemma tagging_falls_back_to_unknown_witness :
  exists a s',
    pipeline (Fixtures.toolkit Fixtures.offline) ∅
      "Dr. Smith went" Fixtures.blank = (Ok a, s')
    /\ pos_tagged_tokens a
       = [("Dr.", "UNK"); ("Smith", "UNK"); ("went", "UNK")].
Proof.
  destruct (tagging_falls_back_to_unknown
              (Fixtures.toolkit Fixtures.offline) ∅
              "Dr. Smith went" Fixtures.blank
              ["Dr."; "Smith"; "went"]
              (Fixtures.missing "averaged_perceptron_tagger")
              eq_refl eq_refl)
    as (a & s' & Hrun & _ & Htag & _).
  exists a, s'. split; assumption.
Defined.


(** * Further properties of the script *)

(** ** Python strings as the script uses them *)




Lemma split_from_started (word s : string) :
  word <> "" -> Py.split_from word s <> [].
Proof.
  revert word. induction s as [|c s IH]; intros word Hword.
  - cbn. now rewrite flush_word.
  - cbn [Py.split_from]. destruct (Py.isspace_char c).
    + now rewrite flush_word.
    + apply IH. destruct word; [congruence|discriminate].
Qed.

Lemma split_space_only (s : string) :
  Py.all_chars Py.isspace_char s = true -> Py.split s = [].
Proof.
  unfold Py.split. induction s as [|c s IH]; [reflexivity|].
  cbn [Py.all_chars Py.split_from]. intros [Hc Hs]%andb_prop.
  rewrite Hc. now apply IH.
Qed.

Lemma split_from_app_space (word u v : string) c :
  Py.isspace_char c = true ->
  Py.split_from word (u +:+ String c v)
  = Py.split_from word u ++ Py.split_from "" v.
Proof.
  intros Hc. revert word. induction u as [|d u IH]; intros word.
  - change ("" +:+ String c v) with (String c v).
    cbn [Py.split_from]. now rewrite Hc.
  - rewrite append_cons. cbn [Py.split_from].
    destruct (Py.isspace_char d); rewrite IH; [|reflexivity].
    now rewrite app_assoc.
Qed.



(** X2: enlarging the stopword set can only remove tokens: what is kept
    under the larger set is a subsequence of what is kept under the smaller
    one. *)
Theorem more_stopwords_keep_less (stop_words more : gset string)
    (tokens : list string) :
  List.filter (keep (stop_words ∪ more)) tokens
    `sublist_of` List.filter (keep stop_words) tokens.
Proof.
  apply filter_largest; [apply filter_sublist|].
  eapply Forall_impl; [apply filter_all|].
  intros word [Hstop Halnum]%keep_spec. apply keep_spec.
  split; [|exact Halnum]. intros Hin. apply Hstop.
  apply elem_of_union. now left.
Qed.

(** X3: the filter neither merges nor repeats tokens: a token that passes
    occurs in the filtered list as often as in the token list, a token that
    does not pass occurs in it not at all; filtering a second time changes
    nothing. *)
Theorem filter_keeps_multiplicity (stop_words : gset string)
    (tokens : list string) :
  (forall word,
     occurrences word (List.filter (keep stop_words) tokens)
     = if keep stop_words word then occurrences word tokens else 0)
  /\ List.filter (keep stop_words) (List.filter (keep stop_words) tokens)
     = List.filter (keep stop_words) tokens.
Proof.
  split.
  - intros word. unfold occurrences.
    induction tokens as [|token tokens IH]; cbn [List.filter].
    + now destruct (keep stop_words word).
    + destruct (String.eqb_spec word token) as [<-|Hne].
      * destruct (keep stop_words word) eqn:Hkeep.
        -- cbn [List.filter]. rewrite String.eqb_refl. cbn [length].
           now rewrite IH.
        -- exact IH.
      * destruct (keep stop_words token); [|exact IH].
        cbn [List.filter].
        destruct (String.eqb_spec word token); [congruence|exact IH].
  - induction tokens as [|token tokens IH]; [reflexivity|].
    cbn [List.filter]. destruct (keep stop_words token) eqn:Hkeep;
      [|exact IH].
    cbn [List.filter]. now rewrite Hkeep, IH.
Qed.

(** X4: the fallback tokenizer returns no token exactly on the texts made
    of whitespace only, the empty text among them. *)
Theorem split_empty_iff_whitespace (s : string) :
  Py.split s = [] <-> Py.all_chars Py.isspace_char s = true.
Proof.
  split; [|apply split_space_only].
  unfold Py.split. induction s as [|c s IH]; [reflexivity|].
  cbn [Py.all_chars Py.split_from].
  destruct (Py.isspace_char c); [exact IH|].
  intros Hnil. exfalso. revert Hnil. now apply split_from_started.
Qed.

(** X5: a whitespace character cuts the text in two: the tokens of the
    whole are the tokens of the part before it followed by the tokens of the
    part after it. *)
Theorem split_at_whitespace (u v : string) c
    (separator : Py.isspace_char c = true) :
  Py.split (u +:+ String c v) = Py.split u ++ Py.split v.
Proof. unfold Py.split. now apply split_from_app_space. Qed.

Lemma split_at_whitespace_witness :
  Py.split ("Dr. Smith" +:+ String "009" "went  home")
  = Py.split "Dr. Smith" ++ Py.split "went  home".
Proof. apply split_at_whitespace. reflexivity. Defined.

(** X6: joining the fallback tokens by single spaces and splitting again
    gives the same tokens: the join is the text with its whitespace
    normalised. *)
Theorem split_join_split (s : string) :
  Py.split (Py.join " " (Py.split s)) = Py.split s.
Proof. apply split_join, split_words. Qed.

(** ** The entity loop *)

(** X7: the loop yields one entity per labelled child, in the children's
    order, carrying that child's label; groups nested deeper add no entry of
    their own. *)
Theorem entities_one_per_labeled_child (subtrees : list Tree) :
  map snd (entity_loop subtrees [])
  = map label_of (List.filter hasattr_label subtrees)
  /\ length (entity_loop subtrees [])
     = length (List.filter hasattr_label subtrees)
  /\ length (entity_loop subtrees []) <= length subtrees.
Proof.
  rewrite entity_loop_omap. cbn [app].
  assert (H : map snd (omap entity_of subtrees)
              = map label_of (List.filter hasattr_label subtrees)).
  { induction subtrees as [|[token tag|label children] rest IH];
      cbn [omap list_omap entity_of List.filter hasattr_label map label_of snd];
      [reflexivity|exact IH|now rewrite IH]. }
  split; [exact H|].
  assert (Hlen : length (omap entity_of subtrees)
                 = length (List.filter hasattr_label subtrees)).
  { rewrite <- (length_map snd), H. apply length_map. }
  split; [exact Hlen|]. rewrite Hlen. apply filter_length_le.
Qed.

(** X8: when the leaf tokens of every labelled child are words (not empty,
    free of whitespace), the text of each entity splits back into the leaf
    tokens of its group. *)
Theorem entity_text_splits_into_leaf_tokens (subtrees : list Tree)
    (leaf_tokens_are_words :
       Forall (fun subtree => Forall is_word (map fst (leaves subtree)))
              (List.filter hasattr_label subtrees)) :
  map (fun entity => Py.split entity.1) (entity_loop subtrees [])
  = map (fun subtree => map fst (leaves subtree))
        (List.filter hasattr_label subtrees).
Proof.
  rewrite entity_loop_omap. cbn [app].
  induction subtrees as [|[token tag|label children] rest IH];
    cbn [omap list_omap entity_of List.filter hasattr_label map] in *.
  - reflexivity.
  - now apply IH.
  - apply Forall_cons in leaf_tokens_are_words as [Hwords Hrest].
    cbn [fst]. rewrite split_join by exact Hwords.
    now rewrite IH.
Qed.

Lemma entity_text_splits_into_leaf_tokens_witness :
  map (fun entity => Py.split entity.1)
      (entity_loop [Leaf "Dr." "NNP";
                    Node "PERSON" [Leaf "John" "NNP"; Leaf "Smith" "NNP"];
                    Leaf "went" "VBD";
                    Node "GPE" [Node "GPE" [Leaf "New" "NNP"];
                                Leaf "York" "NNP"]] [])
  = [["John"; "Smith"]; ["New"; "York"]].
Proof.
  apply (entity_text_splits_into_leaf_tokens
           [Leaf "Dr." "NNP";
            Node "PERSON" [Leaf "John" "NNP"; Leaf "Smith" "NNP"];
            Leaf "went" "VBD";
            Node "GPE" [Node "GPE" [Leaf "New" "NNP"]; Leaf "York" "NNP"]]).
  repeat constructor; discriminate.
Defined.

(** ** Provisioning, further *)

Section MoreProvisioning.
Context {W : Type} (nltk : Toolkit W).

Lemma provision_loop_found rs all_success (s : state W) :
  (forall name, In name rs -> nltk_data_find nltk name (cache s) = Ok tt) ->
  provision_loop nltk rs all_success s = (Ok all_success, s).
Proof.
  revert all_success. induction rs as [|resource rs IH];
    intros all_success Hfound; [reflexivity|].
  cbn [provision_loop].
  erewrite bind_ok
    by (apply download_nltk_resource_found, Hfound; now left).
  cbn [negb]. apply IH. intros name Hin. apply Hfound. now right.
Qed.

End MoreProvisioning.

(** X9: when every required resource is found, provisioning fetches
    nothing: it returns [True], leaves the cache as it was and shows only
    its opening notice and the success message. *)
Theorem provisioning_is_idle_when_all_found {W} (nltk : Toolkit W)
    (s : state W)
    (all_found :
       forall name, In name resources ->
                    nltk_data_find nltk name (cache s) = Ok tt) :
  provision nltk s =
    (Ok true,
     State (cache s)
           (screen s
            ++ [StInfo "Checking and downloading required NLTK resources...";
                StSuccess "All NLTK resources successfully checked/downloaded"])).
Proof.
  unfold provision. erewrite bind_ok by apply st_run.
  erewrite bind_ok by (apply provision_loop_found; exact all_found).
  erewrite bind_ok by apply st_run.
  unfold ret. cbn [cache screen]. now rewrite <- app_assoc.
Qed.

Lemma provisioning_is_idle_when_all_found_witness :
  provision (Fixtures.toolkit Fixtures.offline) Fixtures.provisioned =
    (Ok true,
     State resources
           [StInfo "Checking and downloading required NLTK resources...";
            StSuccess "All NLTK resources successfully checked/downloaded"]).
Proof.
  apply (provisioning_is_idle_when_all_found
           (Fixtures.toolkit Fixtures.offline) Fixtures.provisioned).
  intros name Hin. cbn in Hin.
  repeat (destruct Hin as [<-|Hin]; [reflexivity|]). destruct Hin.
Defined.


(** X11: [download_nltk_resource] answers [False] only after the lookup
    raised [LookupError] and the fetch raised in its turn; the user has then
    been shown the download notice and an error carrying the exception's
    text. *)
Theorem false_only_after_a_raised_fetch {W} (nltk : Toolkit W)
    (resource_name : string) (s s' : state W)
    (answered_false :
       download_nltk_resource nltk resource_name s = (Ok false, s')) :
  exists e e',
    nltk_data_find nltk resource_name (cache s) = Raise e
    /\ is_LookupError e = true
    /\ nltk_download nltk resource_name (cache s) = (Raise e', cache s')
    /\ screen s' =
         screen s
         ++ [StInfo ("Downloading NLTK resource: " +:+ resource_name);
             StError ("Error downloading " +:+ resource_name +:+ ": "
                      +:+ exn_str e')].
Proof.
  rewrite download_nltk_resource_run in answered_false.
  destruct (nltk_data_find nltk resource_name (cache s)) as [[]|e];
    [discriminate|].
  destruct (is_LookupError e) eqn:Hcls; [|discriminate].
  cbn zeta in answered_false.
  destruct (nltk_download nltk resource_name (cache s)) as [[b|e'] w];
    [discriminate|].
  injection answered_false as <-. exists e, e'. cbn [cache screen].
  rewrite <- app_assoc. auto.
Qed.

Lemma false_only_after_a_raised_fetch_witness :
  exists e e',
    nltk_data_find (Fixtures.toolkit Fixtures.broken) "wordnet" [] = Raise e
    /\ is_LookupError e = true
    /\ nltk_download (Fixtures.toolkit Fixtures.broken) "wordnet" []
       = (Raise e', [])
    /\ [StInfo "Downloading NLTK resource: wordnet";
        StError "Error downloading wordnet: connection refused"]
       = [StInfo ("Downloading NLTK resource: " +:+ "wordnet");
          StError ("Error downloading " +:+ "wordnet" +:+ ": "
                   +:+ exn_str e')].
Proof.
  apply (false_only_after_a_raised_fetch
           (Fixtures.toolkit Fixtures.broken) "wordnet" Fixtures.blank
           (State []
              [StInfo "Downloading NLTK resource: wordnet";
               StError "Error downloading wordnet: connection refused"])).
  reflexivity.
Defined.

(** X12: an exception of the lookup that is not a [LookupError] is not
    handled anywhere: raised for the first resource it ends the script after
    the opening notice, before any fetch, before the title and before any
    pipeline stage, whatever the input text. *)
Theorem unhandled_lookup_exception_ends_the_script {W} (nltk : Toolkit W)
    (user_text : string) (s : state W) e
    (lookup_raised : nltk_data_find nltk "punkt" (cache s) = Raise e)
    (not_a_LookupError : is_LookupError e = false) :
  download_nltk_resource nltk "punkt" s = (Raise e, s)
  /\ script nltk user_text s =
       (Raise e,
        State (cache s)
              (screen s
               ++ [StInfo "Checking and downloading required NLTK resources..."])).
Proof.
  assert (H1 : forall s0 : state W, cache s0 = cache s ->
                 download_nltk_resource nltk "punkt" s0 = (Raise e, s0)).
  { intros s0 Hc. rewrite download_nltk_resource_run, Hc, lookup_raised.
    now rewrite not_a_LookupError. }
  split; [now apply H1|].
  set (s0 := State (cache s)
               (screen s
                ++ [StInfo "Checking and downloading required NLTK resources..."])).
  assert (Hloop : provision_loop nltk resources true s0 = (Raise e, s0)).
  { unfold resources. cbn [provision_loop].
    apply bind_raise. now apply H1. }
  assert (Hprov : provision nltk s = (Raise e, s0)).
  { unfold provision. erewrite bind_ok by apply st_run.
    apply bind_raise. exact Hloop. }
  unfold script. apply bind_raise. exact Hprov.
Qed.

Lemma unhandled_lookup_exception_ends_the_script_witness :
  script unreadable "Dr. Smith went home." Fixtures.blank =
    (Raise (Exn OtherException "[Errno 13] Permission denied"),
     State []
           [StInfo "Checking and downloading required NLTK resources..."]).
Proof.
  apply (unhandled_lookup_exception_ends_the_script unreadable
           "Dr. Smith went home." Fixtures.blank
           (Exn OtherException "[Errno 13] Permission denied")
           eq_refl eq_refl).
Defined.

(** X13: the closing message of provisioning agrees with the flag it
    returns: the success message after [True], the warning after [False]. *)
Theorem provisioning_summary_agrees_with_flag {W} (nltk : Toolkit W)
    (s s' : state W) (b : bool)
    (provisioned : provision nltk s = (Ok b, s')) :
  last (screen s') =
    Some (if b
          then StSuccess "All NLTK resources successfully checked/downloaded"
          else StWarning "Some NLTK resources may not have downloaded correctly").
Proof.
  unfold provision in provisioned.
  erewrite bind_ok in provisioned by apply st_run.
  unfold bind at 1 in provisioned.
  destruct (provision_loop nltk resources true _) as [[b0|e] s1];
    [|discriminate].
  destruct b0; erewrite bind_ok in provisioned by apply st_run;
    unfold ret in provisioned; injection provisioned as <- <-;
    cbn [screen]; apply last_snoc.
Qed.

Lemma provisioning_summary_agrees_with_flag_witness :
  last [StInfo "Checking and downloading required NLTK resources...";
        StInfo "Downloading NLTK resource: punkt";
        StError "Error downloading punkt: connection refused";
        StInfo "Downloading NLTK resource: stopwords";
        StError "Error downloading stopwords: connection refused";
        StInfo "Downloading NLTK resource: wordnet";
        StError "Error downloading wordnet: connection refused";
        StInfo "Downloading NLTK resource: averaged_perceptron_tagger";
        StError "Error downloading averaged_perceptron_tagger: connection refused";
        StInfo "Downloading NLTK resource: maxent_ne_chunker";
        StError "Error downloading maxent_ne_chunker: connection refused";
        StInfo "Downloading NLTK resource: words";
        StError "Error downloading words: connection refused";
        StWarning "Some NLTK resources may not have downloaded correctly"]
  = Some (StWarning "Some NLTK resources may not have downloaded correctly").
Proof.
  apply (provisioning_summary_agrees_with_flag
           (Fixtures.toolkit Fixtures.broken) Fixtures.blank
           (State [] _) false).
  reflexivity.
Defined.



(** ** What the pipeline shows *)

Section PipelineScreen.
Context {W : Type} (nltk : Toolkit W).


Ltac shown :=
  unfold extends; cbn [cache screen]; rewrite <- ?app_assoc; reflexivity.








End PipelineScreen.





Lemma entity_loop_none (subtrees : list Tree) :
  entity_loop subtrees [] = [] <-> existsb hasattr_label subtrees = false.
Proof.
  rewrite entity_loop_omap. cbn [app].
  induction subtrees as [|[token tag|label children] rest IH];
    cbn [omap list_omap entity_of existsb hasattr_label orb].
  - split; reflexivity.
  - exact IH.
  - split; discriminate.
Qed.

(** X18: when the chunker returns a tree, the section shows the tree and
    then reports on the entities: the list of entities when some immediate
    child is a labelled group, the sentence "No named entities detected."
    when none is; no error notice is shown. *)
Theorem entity_report_matches_the_tree {W} (nltk : Toolkit W)
    (pos_tagged_tokens : list (string * string)) (s : state W) t
    (chunked : ne_chunk nltk pos_tagged_tokens (cache s) = Ok t) :
  exists s' before,
    ner_stage nltk pos_tagged_tokens s =
      (Ok (Some t, Some (entity_loop (iter t) [])), s')
    /\ screen s' =
         screen s ++ before ++ [StText t]
         ++ (if existsb hasattr_label (iter t)
             then [StWrite (VStr "Detected Named Entities:");
                   StWrite (VPairs (entity_loop (iter t) []))]
             else [StWrite (VStr "No named entities detected.")])
         ++ [StDivider]
    /\ errors before = []
    /\ subheaders before = ["7. Named Entity Recognition (NER)"].
Proof.
  unfold ner_stage, bind, try_except, call, st, ret, is_Exception.
  cbn [cache screen]. rewrite chunked.
  destruct (entity_loop (iter t) []) as [|entity rest] eqn:Hloop.
  - apply entity_loop_none in Hloop as ->.
    eexists _, [_; _; _]. split; [reflexivity|].
    cbn [screen]. rewrite <- !app_assoc. cbn [app].
    split; [reflexivity|]. split; reflexivity.
  - assert (Hsome : existsb hasattr_label (iter t) = true).
    { destruct (existsb hasattr_label (iter t)) eqn:Hex; [reflexivity|].
      apply entity_loop_none in Hex. congruence. }
    rewrite Hsome.
    eexists _, [_; _; _]. split; [reflexivity|].
    cbn [screen]. rewrite <- !app_assoc. cbn [app].
    split; [reflexivity|]. split; reflexivity.
Qed.

Lemma entity_report_matches_the_tree_witness :
  exists s' before,
    ner_stage (Fixtures.toolkit Fixtures.online)
      [("went", "NN"); ("home", "NN")] Fixtures.provisioned =
      (Ok (Some (Node "S" [Leaf "went" "NN"; Leaf "home" "NN"]), Some []), s')
    /\ screen s' =
         [] ++ before
         ++ [StText (Node "S" [Leaf "went" "NN"; Leaf "home" "NN"])]
         ++ [StWrite (VStr "No named entities detected.")]
         ++ [StDivider]
    /\ errors before = []
    /\ subheaders before = ["7. Named Entity Recognition (NER)"].
Proof.
  apply (entity_report_matches_the_tree (Fixtures.toolkit Fixtures.online)
           [("went", "NN"); ("home", "NN")] Fixtures.provisioned
           (Node "S" [Leaf "went" "NN"; Leaf "home" "NN"])).
  reflexivity.
Defined.
